(** * tools/prompt-validator.py: the prompt template validator

    A shallow embedding of [PromptValidator] and [main], and the properties
    of the validator's findings, warnings and exit status.

    Python strings are sequences of Unicode code points, so a [str] is a
    list of code points here; the two regular-expression features the
    validator's patterns use (literal characters and [\s+], under
    [re.IGNORECASE]) are interpreted by a small backtracking matcher. *)

From Stdlib Require Import String Ascii NArith ZArith Bool Arith Lia List.
Import ListNotations.

Set Implicit Arguments.

(** ** Python strings *)

Definition pystr := list N.

(** A string literal of the source, as its code points (ASCII literals only). *)
Definition py (s : string) : pystr := map N_of_ascii (list_ascii_of_string s).

Definition is_upper (c : N) : bool := ((65 <=? c) && (c <=? 90))%N.
Definition is_lower (c : N) : bool := ((97 <=? c) && (c <=? 122))%N.
Definition is_letter (c : N) : bool := is_upper c || is_lower c.
Definition ascii_lower (c : N) : N := if is_upper c then (c + 32)%N else c.
Definition ascii_upper (c : N) : N := if is_lower c then (c - 32)%N else c.

(** [str.isspace] on one code point, which is what [\s] tests in a [str]
    pattern: the ASCII controls 9-13 and 28-31, the space, and the Unicode
    separators. *)
Definition is_space (c : N) : bool :=
  (((9 <=? c) && (c <=? 13)) || ((28 <=? c) && (c <=? 32))
   || (c =? 0x85) || (c =? 0xA0) || (c =? 0x1680)
   || ((0x2000 <=? c) && (c <=? 0x200A))
   || (c =? 0x2028) || (c =? 0x2029) || (c =? 0x202F)
   || (c =? 0x205F) || (c =? 0x3000))%N.

(** [s.replace(old, new)] for one-character [old] and [new]. *)
Definition replace (old new : N) (s : pystr) : pystr :=
  map (fun c => if (c =? old)%N then new else c) s.

(** [s.title()]: a letter that follows a cased character is lowered, any
    other letter is raised (ASCII letters; the section names are ASCII). *)
Fixpoint title_from (previous_is_cased : bool) (s : pystr) : pystr :=
  match s with
  | [] => []
  | c :: s' =>
      (if previous_is_cased then ascii_lower c else ascii_upper c)
        :: title_from (is_letter c) s'
  end.

Definition title (s : pystr) : pystr := title_from false s.

(** [sub in s] *)
Fixpoint startswith (s prefix : pystr) {struct prefix} : bool :=
  match prefix, s with
  | [], _ => true
  | p :: prefix', c :: s' =>
      if (c =? p)%N then startswith s' prefix' else false
  | _ :: _, [] => false
  end.

Fixpoint str_in (sub s : pystr) : bool :=
  if startswith s sub then true
  else match s with
       | [] => false
       | _ :: s' => str_in sub s'
       end.

(** ** The fragment of [re] the validator uses *)

Inductive re_flags := NOFLAG | IGNORECASE.

Inductive atom :=
| Literal (c : N)
| CategorySpace.

Inductive node :=
| Once (a : atom)
| MaxRepeat1 (a : atom).

Definition regex := list node.

(** Pattern syntax: [\s] is the whitespace class, a backslash before any other
    character quotes it, a [+] after an atom repeats it one or more times,
    and every other character stands for itself. *)
Fixpoint sre_parse (p : pystr) : regex :=
  match p with
  | [] => []
  | c :: p1 =>
      if (c =? 92)%N then
        match p1 with
        | d :: p2 =>
            let a := if (d =? 115)%N then CategorySpace else Literal d in
            match p2 with
            | q :: p3 =>
                if (q =? 43)%N then MaxRepeat1 a :: sre_parse p3
                else Once a :: sre_parse p2
            | [] => [Once a]
            end
        | [] => [Once (Literal c)]
        end
      else
        match p1 with
        | q :: p2 =>
            if (q =? 43)%N then MaxRepeat1 (Literal c) :: sre_parse p2
            else Once (Literal c) :: sre_parse p1
        | [] => [Once (Literal c)]
        end
  end.

(** A literal under [re.IGNORECASE] in a [str] pattern. A pattern letter
    matches every code point whose lowercase is the letter's: both ASCII
    cases, and besides them U+0130 for [i] and U+212A (the Kelvin sign) for
    [k]; [i] and [s] also match their case-equivalents U+0131 and U+017F.
    A character that is not a letter matches only itself. *)
Definition literal_ignorecase (c ch : N) : bool :=
  if is_letter c then
    let lo := ascii_lower c in
    ((ascii_lower ch =? lo)
     || ((lo =? 105) && ((ch =? 0x130) || (ch =? 0x131)))
     || ((lo =? 107) && (ch =? 0x212A))
     || ((lo =? 115) && (ch =? 0x17F)))%N
  else (ch =? c)%N.

Definition atom_matches (flags : re_flags) (a : atom) (ch : N) : bool :=
  match a with
  | Literal c =>
      match flags with
      | IGNORECASE => literal_ignorecase c ch
      | NOFLAG => (ch =? c)%N
      end
  | CategorySpace => is_space ch
  end.

(** Does the pattern match at the start of [s]?  A repeat first tries to
    take one more character and falls back to the rest of the pattern. *)
Fixpoint match_here (flags : re_flags) (r : regex) (s : pystr) : bool :=
  match r with
  | [] => true
  | Once a :: r' =>
      match s with
      | c :: s' =>
          if atom_matches flags a c then match_here flags r' s' else false
      | [] => false
      end
  | MaxRepeat1 a :: r' =>
      (fix repeat1 (s : pystr) : bool :=
         match s with
         | c :: s' =>
             if atom_matches flags a c then
               if repeat1 s' then true else match_here flags r' s'
             else false
         | [] => false
         end) s
  end.

(** [re.search]: the first position of the string where the pattern matches. *)
Fixpoint search (flags : re_flags) (r : regex) (s : pystr) : bool :=
  if match_here flags r s then true
  else match s with
       | [] => false
       | _ :: s' => search flags r s'
       end.

(** [re.search(pattern, string, flags)] as a truth value. *)
Definition re_search (pattern : string) (text : pystr) (flags : re_flags) : bool :=
  search flags (sre_parse (py pattern)) text.

(** ** The environment: [pathlib] and the file system *)

(** A [pathlib.Path]: what [str(p)] and [p.name] give. *)
Record PathObj := { path_str : pystr; path_name : pystr }.

(** What [open(p, 'r', encoding='utf-8')] followed by [f.read()] does. *)
Inductive read_outcome :=
| ReadOk (text : pystr)
| RaisesFileNotFoundError
| RaisesException (str_e : pystr).

Record OS := {
  Path : pystr -> PathObj;
  open_read : PathObj -> read_outcome
}.

(** ** class PromptValidator *)

Record PromptValidator := {
  filepath : PathObj;
  content : pystr;
  errors : list pystr;
  warnings : list pystr
}.

Definition REQUIRED_SECTIONS : list (string * string) :=
  [ ("context", "##\s+Context");
    ("task", "##\s+Task");
    ("requirements", "##\s+Requirements");
    ("validation", "##\s+Validation");
    ("output_format", "##\s+Output\s+Format");
    ("security", "##\s+Security") ]%string.

Definition __init__ (os : OS) (filepath : pystr) : PromptValidator :=
  {| filepath := Path os filepath; content := []; errors := []; warnings := [] |}.

(** Methods run in a state monad over the instance they mutate. *)
Definition M (A : Type) : Type := PromptValidator -> A * PromptValidator.

Definition ret {A} (a : A) : M A := fun self => (a, self).

Definition bind {A B} (m : M A) (k : A -> M B) : M B :=
  fun self => let (a, self') := m self in k a self'.

Notation "x <- m ;; k" := (bind m (fun x => k))
  (at level 61, m at next level, right associativity).
Notation "m ;; k" := (bind m (fun _ => k))
  (at level 61, right associativity).

Definition get {A} (field : PromptValidator -> A) : M A :=
  fun self => (field self, self).

Definition set_content (text : pystr) : M unit :=
  fun self =>
    (tt, {| filepath := filepath self; content := text;
            errors := errors self; warnings := warnings self |}).

Definition errors_append (e : pystr) : M unit :=
  fun self =>
    (tt, {| filepath := filepath self; content := content self;
            errors := errors self ++ [e]; warnings := warnings self |}).

Definition warnings_append (w : pystr) : M unit :=
  fun self =>
    (tt, {| filepath := filepath self; content := content self;
            errors := errors self; warnings := warnings self ++ [w] |}).

Fixpoint for_each {A} (l : list A) (body : A -> M unit) : M unit :=
  match l with
  | [] => ret tt
  | x :: l' => body x ;; for_each l' body
  end.

Definition when (b : bool) (m : M unit) : M unit := if b then m else ret tt.

Definition load_file (os : OS) : M bool :=
  p <- get filepath ;;
  match open_read os p with
  | ReadOk text => set_content text ;; ret true
  | RaisesFileNotFoundError =>
      errors_append (py "File not found: " ++ path_str p) ;; ret false
  | RaisesException str_e =>
      errors_append (py "Error reading file: " ++ str_e) ;; ret false
  end.

Definition missing_section_message (section_name : string) : pystr :=
  py "Missing required section: " ++ title (replace 95 32 (py section_name)).

Definition check_required_sections : M unit :=
  for_each REQUIRED_SECTIONS (fun '(section_name, pattern) =>
    text <- get content ;;
    when (negb (re_search pattern text IGNORECASE))
      (errors_append (missing_section_message section_name))).

Definition generic_phrases : list string :=
  [ "build\s+me\s+a";
    "create\s+a\s+simple";
    "make\s+it\s+work";
    "fix\s+this" ]%string.

Definition generic_phrase_warning : pystr :=
  py "Generic phrase detected - ensure specificity (Rule 1)".

Definition check_specificity : M unit :=
  for_each generic_phrases (fun phrase =>
    text <- get content ;;
    when (re_search phrase text IGNORECASE)
      (warnings_append generic_phrase_warning)).

Definition no_examples_warning : pystr :=
  py "No code examples found - consider adding examples (Rule 9)".

Definition check_examples : M unit :=
  text <- get content ;;
  when (negb (str_in (py "```") text))
    (warnings_append no_examples_warning).

Definition validate (os : OS) : M bool :=
  loaded <- load_file os ;;
  if negb loaded then ret false
  else
    check_required_sections ;;
    check_specificity ;;
    check_examples ;;
    errs <- get errors ;;
    ret (length errs =? 0).

(** [print_report]: the lines it prints, one per [print] call, and the
    value it returns. *)
Definition banner : pystr := repeat 61%N 60.

Definition bullets (findings : list pystr) : list pystr :=
  map (fun finding => py "  - " ++ finding) findings.

Definition print_report (self : PromptValidator) : list pystr * bool :=
  let header :=
    [ [10%N] ++ banner;
      py "Validating: " ++ path_name (filepath self);
      banner ++ [10%N] ] in
  match errors self, warnings self with
  | [], [] =>
      (header ++ [[0x201A; 0xFA; 0xD6]%N ++ py " All checks passed!"], true)
  | _, _ =>
      let errors_block :=
        match errors self with
        | [] => []
        | _ :: _ =>
            [[0x201A; 0xF9; 0xE5]%N ++ py " ERRORS:"]
              ++ bullets (errors self) ++ [[]]
        end in
      let warnings_block :=
        match warnings self with
        | [] => []
        | _ :: _ =>
            [[0x201A; 0xF6; 0x2020; 0xD4; 0x220F; 0xE8]%N ++ py "  WARNINGS:"]
              ++ bullets (warnings self) ++ [[]]
        end in
      (header ++ errors_block ++ warnings_block, length (errors self) =? 0)
  end.

(** ** main *)

Definition usage : list pystr :=
  [ py "Usage: python tools/prompt-validator.py <prompt-file>";
    py "Example: python tools/prompt-validator.py prompts/templates/backend-starter.md" ].

Definition see_rules : pystr :=
  [10; 0xF8FF; 0xFC; 0xEC; 0xF1]%N
    ++ py " See Rules 1-10 in README.md for prompt engineering guidelines".

(** [main] on [sys.argv]: what it prints and the status it exits with. *)
Definition main (os : OS) (argv : list pystr) : list pystr * Z :=
  if length argv <? 2 then (usage, 1%Z)
  else
    let filepath := nth 1 argv [] in
    let validator := __init__ os filepath in
    let (_, validator) := validate os validator in
    let (report, success) := print_report validator in
    if negb success then (report ++ [see_rules], 1%Z)
    else (report, 0%Z).

(** ** Specification vocabulary *)

(** The strings a pattern denotes: [Matches flags r m] when the whole of [m]
    is matched by [r]. *)
Inductive Matches (flags : re_flags) : regex -> pystr -> Prop :=
| Matches_nil : Matches flags [] []
| Matches_once a r c m :
    atom_matches flags a c = true ->
    Matches flags r m ->
    Matches flags (Once a :: r) (c :: m)
| Matches_repeat a r cs m :
    cs <> [] ->
    Forall (fun c => atom_matches flags a c = true) cs ->
    Matches flags r m ->
    Matches flags (MaxRepeat1 a :: r) (cs ++ m).

(** [sub] occurs somewhere in [s]. *)
Definition substring (sub s : pystr) : Prop :=
  exists pre post, s = pre ++ sub ++ post.

(** Two strings that differ at most in the case of their ASCII letters. *)
Definition same_ignoring_case (a b : pystr) : Prop :=
  Forall2 (fun x y => ascii_lower x = ascii_lower y) a b.

Definition whitespace (ws : pystr) : Prop :=
  ws <> [] /\ Forall (fun c => is_space c = true) ws.

(** [s.split(sep)] for a one-character separator. *)
Fixpoint split_from (sep : N) (word s : pystr) : list pystr :=
  match s with
  | [] => [word]
  | c :: s' =>
      if (c =? sep)%N then word :: split_from sep [] s'
      else split_from sep (word ++ [c]) s'
  end.

Definition str_split (sep : N) (s : pystr) : list pystr := split_from sep [] s.

(** A heading's text after its [##]: each word of the section name, in any
    case, with whitespace before it. *)
Inductive heading_text : list pystr -> pystr -> Prop :=
| heading_end : heading_text [] []
| heading_word ws w w' words rest :
    whitespace ws ->
    same_ignoring_case w' w ->
    heading_text words rest ->
    heading_text (w :: words) (ws ++ w' ++ rest).

(** The sections whose heading pattern finds nothing in the document, the
    generic phrases that occur in it, and whether it has a code fence. *)
Definition missing_sections (doc : pystr) : list string :=
  map fst
    (filter (fun section => negb (re_search (snd section) doc IGNORECASE))
       REQUIRED_SECTIONS).

Definition matching_phrases (doc : pystr) : list string :=
  filter (fun phrase => re_search phrase doc IGNORECASE) generic_phrases.

Definition error_findings (doc : pystr) : list pystr :=
  map missing_section_message (missing_sections doc).

Definition warning_findings (doc : pystr) : list pystr :=
  map (fun _ => generic_phrase_warning) (matching_phrases doc)
    ++ (if str_in (py "```") doc then [] else [no_examples_warning]).

Definition str_eqb (a b : pystr) : bool :=
  if list_eq_dec N.eq_dec a b then true else false.

(** How often a finding occurs in a list of findings. *)
Definition occurrences (finding : pystr) (findings : list pystr) : nat :=
  length (filter (str_eqb finding) findings).

(** The instance as it is once its file has been read. *)
Definition loaded (os : OS) (path doc : pystr) : PromptValidator :=
  {| filepath := Path os path; content := doc; errors := []; warnings := [] |}.

(** How many report headers ("Validating: ...") an output holds: one is
    printed for each file that is validated and reported. *)
Definition report_headers (out : list pystr) : nat :=
  length (filter (fun line => startswith line (py "Validating: ")) out).

(** The words of a section name: the name cut at its underscores. *)
Definition section_words (section_name : string) : list pystr :=
  str_split 95 (py section_name).

(** ** Concrete environments and documents *)

Definition nl : pystr := [10%N].

Fixpoint lookup_file (files : list (pystr * pystr)) (p : pystr) : read_outcome :=
  match files with
  | [] => RaisesFileNotFoundError
  | (name, text) :: files' =>
      if str_eqb name p then ReadOk text else lookup_file files' p
  end.

(** A file system holding [files], with paths that print as they are given. *)
Definition os_with (files : list (pystr * pystr)) : OS :=
  {| Path := fun p => {| path_str := p; path_name := p |};
     open_read := fun p => lookup_file files (path_str p) |}.

Definition compliant_doc : pystr :=
  py "# Prompt" ++ nl
  ++ py "## SECURITY" ++ nl ++ py "no secrets" ++ nl
  ++ py "## output   format" ++ nl ++ py "```json" ++ nl ++ py "{}" ++ nl ++ py "```" ++ nl
  ++ py "## Validation" ++ nl
  ++ py "## requirements" ++ nl
  ++ py "## Task" ++ nl
  ++ py "## context" ++ nl.

Definition context_only_doc : pystr := py "## Context" ++ nl ++ py "hello".

Definition generic_doc : pystr :=
  compliant_doc ++ py "Build me a parser, then FIX  this." ++ nl.

Definition build_me_a_doc : pystr :=
  compliant_doc ++ py "Please BUILD ME A parser." ++ nl.

Definition deep_heading_doc : pystr :=
  py "```" ++ nl ++ py "see ### Context" ++ nl ++ py "```" ++ nl.

Definition underscore_heading_doc : pystr := py "## output_format" ++ nl.

Definition example_os : OS :=
  os_with
    [ (py "good.md", compliant_doc);
      (py "context.md", context_only_doc);
      (py "generic.md", generic_doc);
      (py "build.md", build_me_a_doc);
      (py "deep.md", deep_heading_doc);
      (py "underscore.md", underscore_heading_doc) ].

(** ** The lines of a report *)

Definition passed_line : pystr :=
  [0x201A; 0xFA; 0xD6]%N ++ py " All checks passed!".

Definition errors_title : pystr := [0x201A; 0xF9; 0xE5]%N ++ py " ERRORS:".

Definition warnings_title : pystr :=
  [0x201A; 0xF6; 0x2020; 0xD4; 0x220F; 0xE8]%N ++ py "  WARNINGS:".

(** The three lines every report starts with. *)
Definition report_header (self : PromptValidator) : list pystr :=
  [ [10%N] ++ banner;
    py "Validating: " ++ path_name (filepath self);
    banner ++ [10%N] ].

(** The bullet lines of an output. *)
Definition bullet_lines (out : list pystr) : list pystr :=
  filter (fun line => startswith line (py "  - ")) out.

(** A file system on which every read fails with an exception other than
    [FileNotFoundError]. *)
Definition unreadable_os (str_e : pystr) : OS :=
  {| Path := fun p => {| path_str := p; path_name := p |};
     open_read := fun _ => RaisesException str_e |}.

Definition no_space_doc : pystr := py "##Context" ++ nl ++ py "# # Task".

(** * Properties *)

(** ** The matcher computes the denotation of a pattern *)

Example parse_output_format :
  sre_parse (py "##\s+Output\s+Format")
  = map Once (map Literal (py "##")) ++ [MaxRepeat1 CategorySpace]
    ++ map Once (map Literal (py "Output")) ++ [MaxRepeat1 CategorySpace]
    ++ map Once (map Literal (py "Format")).
Proof. reflexivity. Qed.

Lemma match_here_repeat flags a r c s :
  match_here flags (MaxRepeat1 a :: r) (c :: s)
  = if atom_matches flags a c then
      if match_here flags (MaxRepeat1 a :: r) s then true
      else match_here flags r s
    else false.
Proof. reflexivity. Qed.

Lemma match_here_repeat_nil flags a r :
  match_here flags (MaxRepeat1 a :: r) [] = false.
Proof. reflexivity. Qed.

Lemma match_here_sound flags r :
  forall s, match_here flags r s = true ->
  exists m rest, s = m ++ rest /\ Matches flags r m.
Proof.
  induction r as [| n r IH]; intros s H.
  - exists [], s. split; [reflexivity | constructor].
  - destruct n as [a | a].
    + destruct s as [| c s]; [discriminate |].
      simpl in H. destruct (atom_matches flags a c) eqn:Ha; [| discriminate].
      destruct (IH _ H) as (m & rest & -> & Hm).
      exists (c :: m), rest. split; [reflexivity | now constructor].
    + induction s as [| c s IHs].
      * rewrite match_here_repeat_nil in H. discriminate.
      * rewrite match_here_repeat in H.
        destruct (atom_matches flags a c) eqn:Ha; [| discriminate].
        destruct (match_here flags (MaxRepeat1 a :: r) s) eqn:Hmore.
        -- destruct (IHs eq_refl) as (m & rest & -> & Hm).
           inversion Hm as [| | a' r' cs m' Hne Hall Hm' E1 E2]; subst.
           exists (c :: cs ++ m'), rest. split; [reflexivity |].
           change (c :: cs ++ m') with ((c :: cs) ++ m').
           apply Matches_repeat; auto. discriminate.
        -- destruct (IH _ H) as (m & rest & -> & Hm).
           exists (c :: m), rest. split; [reflexivity |].
           change (c :: m) with ([c] ++ m).
           apply Matches_repeat; auto. discriminate.
Qed.

Lemma match_here_repeat_complete flags a r tail :
  match_here flags r tail = true ->
  forall cs c,
    Forall (fun c => atom_matches flags a c = true) (c :: cs) ->
    match_here flags (MaxRepeat1 a :: r) ((c :: cs) ++ tail) = true.
Proof.
  intros Htail. induction cs as [| c' cs IH]; intros c Hall;
    inversion Hall as [| x l Hc Hrest]; subst;
    rewrite <- app_comm_cons, match_here_repeat, Hc.
  - cbn [app].
    destruct (match_here flags (MaxRepeat1 a :: r) tail);
      [reflexivity | exact Htail].
  - now rewrite (IH c' Hrest).
Qed.

Lemma match_here_complete flags r m :
  Matches flags r m -> forall rest, match_here flags r (m ++ rest) = true.
Proof.
  induction 1 as [| a r c m Ha Hm IH | a r cs m Hne Hall Hm IH]; intros rest.
  - reflexivity.
  - simpl. now rewrite Ha, IH.
  - rewrite <- app_assoc. destruct cs as [| c cs]; [congruence |].
    now apply match_here_repeat_complete.
Qed.

Lemma search_here flags r s :
  match_here flags r s = true -> search flags r s = true.
Proof. intros H. destruct s; simpl; now rewrite H. Qed.

Lemma search_later flags r c s :
  search flags r s = true -> search flags r (c :: s) = true.
Proof. intros H. simpl. rewrite H. now destruct (match_here _ _ _). Qed.

Lemma search_spec flags r s :
  search flags r s = true
  <-> exists pre m post, s = pre ++ m ++ post /\ Matches flags r m.
Proof.
  split.
  - induction s as [| c s IH]; simpl; intros H.
    + destruct (match_here flags r []) eqn:Hhere; [| discriminate].
      destruct (match_here_sound _ _ _ Hhere) as (m & rest & E & Hm).
      exists [], m, rest. now split.
    + destruct (match_here flags r (c :: s)) eqn:Hhere.
      * destruct (match_here_sound _ _ _ Hhere) as (m & rest & E & Hm).
        exists [], m, rest. now split.
      * destruct (IH H) as (pre & m & post & -> & Hm).
        exists (c :: pre), m, post. now split.
  - intros (pre & m & post & -> & Hm).
    induction pre as [| c pre IH].
    + apply search_here, (match_here_complete Hm).
    + apply search_later, IH.
Qed.

Lemma startswith_spec s sub :
  startswith s sub = true <-> exists post, s = sub ++ post.
Proof.
  revert s. induction sub as [| p sub IH]; intros s; simpl.
  - split; [intros _; now exists s | reflexivity].
  - destruct s as [| c s].
    + split; [discriminate | intros (post & E); discriminate].
    + destruct (c =? p)%N eqn:Hc.
      * apply N.eqb_eq in Hc as ->. rewrite IH. split.
        -- intros (post & ->). now exists post.
        -- intros (post & E). injection E as ->. now exists post.
      * apply N.eqb_neq in Hc. split; [discriminate |].
        intros (post & E). injection E as -> _. now destruct Hc.
Qed.

Lemma str_in_here sub s : startswith s sub = true -> str_in sub s = true.
Proof. intros H. destruct s; simpl; now rewrite H. Qed.

Lemma str_in_later sub c s : str_in sub s = true -> str_in sub (c :: s) = true.
Proof. intros H. simpl. rewrite H. now destruct (startswith _ _). Qed.

Lemma str_in_spec sub s : str_in sub s = true <-> substring sub s.
Proof.
  unfold substring. split.
  - induction s as [| c s IH]; simpl; intros H.
    + destruct (startswith [] sub) eqn:Hhere; [| discriminate].
      apply startswith_spec in Hhere as (post & E). now exists [], post.
    + destruct (startswith (c :: s) sub) eqn:Hhere.
      * apply startswith_spec in Hhere as (post & E). now exists [], post.
      * destruct (IH H) as (pre & post & ->). now exists (c :: pre), post.
  - intros (pre & post & ->).
    induction pre as [| c pre IH].
    + apply str_in_here, startswith_spec. now exists post.
    + apply str_in_later, IH.
Qed.

(** ** What each method does to the instance *)

Lemma for_each_ext {A} (body body' : A -> M unit) l :
  (forall x self, body x self = body' x self) ->
  forall self, for_each l body self = for_each l body' self.
Proof.
  intros E. induction l as [| x l IH]; intros self; simpl; [reflexivity |].
  unfold bind. rewrite E. destruct (body' x self). apply IH.
Qed.

Lemma for_each_errors {A} (test : A -> pystr -> bool) (msg : A -> pystr) l :
  forall self,
    for_each l (fun x =>
      text <- get content ;; when (test x text) (errors_append (msg x))) self
    = (tt, {| filepath := filepath self; content := content self;
              errors := errors self
                        ++ map msg (filter (fun x => test x (content self)) l);
              warnings := warnings self |}).
Proof.
  induction l as [| x l IH]; intros [p text errs warns]; simpl.
  - now rewrite app_nil_r.
  - unfold bind at 1. unfold bind at 1. unfold get at 1. simpl.
    destruct (test x text); simpl; rewrite IH; simpl.
    + now rewrite <- app_assoc.
    + reflexivity.
Qed.

Lemma for_each_warnings {A} (test : A -> pystr -> bool) (msg : A -> pystr) l :
  forall self,
    for_each l (fun x =>
      text <- get content ;; when (test x text) (warnings_append (msg x))) self
    = (tt, {| filepath := filepath self; content := content self;
              errors := errors self;
              warnings := warnings self
                          ++ map msg (filter (fun x => test x (content self)) l) |}).
Proof.
  induction l as [| x l IH]; intros [p text errs warns]; simpl.
  - now rewrite app_nil_r.
  - unfold bind at 1. unfold bind at 1. unfold get at 1. simpl.
    destruct (test x text); simpl; rewrite IH; simpl.
    + now rewrite <- app_assoc.
    + reflexivity.
Qed.

Lemma check_required_sections_spec self :
  check_required_sections self
  = (tt, {| filepath := filepath self; content := content self;
            errors := errors self ++ error_findings (content self);
            warnings := warnings self |}).
Proof.
  unfold check_required_sections.
  rewrite for_each_ext with
    (body' := fun x => text <- get content ;;
       when (negb (re_search (snd x) text IGNORECASE))
         (errors_append (missing_section_message (fst x))))
    by (intros [name pattern] s; reflexivity).
  rewrite (for_each_errors
             (fun x text => negb (re_search (snd x) text IGNORECASE))
             (fun x => missing_section_message (fst x))).
  unfold error_findings, missing_sections. now rewrite map_map.
Qed.

Lemma check_specificity_spec self :
  check_specificity self
  = (tt, {| filepath := filepath self; content := content self;
            errors := errors self;
            warnings := warnings self
                        ++ map (fun _ => generic_phrase_warning)
                             (matching_phrases (content self)) |}).
Proof.
  unfold check_specificity.
  apply (for_each_warnings
           (fun phrase text => re_search phrase text IGNORECASE)
           (fun _ => generic_phrase_warning)).
Qed.

Lemma check_examples_spec self :
  check_examples self
  = (tt, {| filepath := filepath self; content := content self;
            errors := errors self;
            warnings := warnings self
                        ++ (if str_in (py "```") (content self) then []
                            else [no_examples_warning]) |}).
Proof.
  destruct self as [p text errs warns].
  unfold check_examples, bind, get, when. cbn [content fst snd].
  destruct (str_in _ text); simpl; [now rewrite app_nil_r | reflexivity].
Qed.

Lemma bind_run {A B} (m : M A) (k : A -> M B) self a self'
    (H : m self = (a, self')) :
  bind m k self = k a self'.
Proof. unfold bind. now rewrite H. Qed.

Arguments bind_run {A B m} k {self a self'} H.

Lemma load_file_spec os self :
  load_file os self
  = match open_read os (filepath self) with
    | ReadOk text =>
        (true, {| filepath := filepath self; content := text;
                  errors := errors self; warnings := warnings self |})
    | RaisesFileNotFoundError =>
        (false, {| filepath := filepath self; content := content self;
                   errors := errors self
                             ++ [py "File not found: " ++ path_str (filepath self)];
                   warnings := warnings self |})
    | RaisesException str_e =>
        (false, {| filepath := filepath self; content := content self;
                   errors := errors self ++ [py "Error reading file: " ++ str_e];
                   warnings := warnings self |})
    end.
Proof.
  destruct self as [p text errs warns].
  unfold load_file, bind, get. cbn [filepath content errors warnings].
  destruct (open_read os p); reflexivity.
Qed.

Lemma validate_loaded os self doc :
  open_read os (filepath self) = ReadOk doc ->
  validate os self
  = (length (errors self ++ error_findings doc) =? 0,
     {| filepath := filepath self; content := doc;
        errors := errors self ++ error_findings doc;
        warnings := warnings self ++ warning_findings doc |}).
Proof.
  intros Hread. unfold validate.
  pose proof (load_file_spec os self) as Hload. rewrite Hread in Hload.
  rewrite (bind_run _ Hload). cbn [negb].
  rewrite (bind_run _ (check_required_sections_spec _)).
  rewrite (bind_run _ (check_specificity_spec _)).
  rewrite (bind_run _ (check_examples_spec _)).
  unfold bind, get, ret, warning_findings.
  cbn [filepath content errors warnings]. now rewrite <- app_assoc.
Qed.

Lemma validate_not_loaded os self :
  (forall doc, open_read os (filepath self) <> ReadOk doc) ->
  validate os self = (false, snd (load_file os self))
  /\ fst (load_file os self) = false.
Proof.
  intros Hread. unfold validate, bind. rewrite load_file_spec.
  destruct (open_read os (filepath self)) as [doc | | str_e];
    [now destruct (Hread doc) | now split ..].
Qed.

Lemma validate_not_found os self :
  open_read os (filepath self) = RaisesFileNotFoundError ->
  validate os self
  = (false,
     {| filepath := filepath self; content := content self;
        errors := errors self
                  ++ [py "File not found: " ++ path_str (filepath self)];
        warnings := warnings self |}).
Proof.
  intros Hread. unfold validate, bind.
  rewrite load_file_spec, Hread. reflexivity.
Qed.

Lemma validate_exception os self str_e :
  open_read os (filepath self) = RaisesException str_e ->
  validate os self
  = (false,
     {| filepath := filepath self; content := content self;
        errors := errors self ++ [py "Error reading file: " ++ str_e];
        warnings := warnings self |}).
Proof.
  intros Hread. unfold validate, bind.
  rewrite load_file_spec, Hread. reflexivity.
Qed.

Arguments re_search : simpl never.

Lemma filter_none {A} (f : A -> bool) l :
  (forall x, In x l -> f x = false) -> filter f l = [].
Proof.
  induction l as [| x l IH]; intros H; simpl; [reflexivity |].
  rewrite (H x (or_introl eq_refl)). apply IH. intros y Hy. apply H. now right.
Qed.

Lemma map_const_repeat {A B} (b : B) (l : list A) :
  map (fun _ => b) l = repeat b (length l).
Proof. induction l as [| x l IH]; simpl; [reflexivity | now rewrite IH]. Qed.

Lemma warnings_differ : generic_phrase_warning <> no_examples_warning.
Proof. vm_compute. discriminate. Qed.

(** ** The claims about [validate] *)

(** C1. A document in which all six required heading patterns match
    (case-insensitively, wherever and in whatever order the headings stand),
    in which none of the four generic phrases matches, and which contains a
    code-fence marker, validates: [validate()] returns true, and it leaves
    the error list (and the warning list) empty. *)
Theorem validate_compliant_document os path doc :
  open_read os (Path os path) = ReadOk doc ->
  (forall section, In section REQUIRED_SECTIONS ->
     re_search (snd section) doc IGNORECASE = true) ->
  (forall phrase, In phrase generic_phrases ->
     re_search phrase doc IGNORECASE = false) ->
  str_in (py "```") doc = true ->
  validate os (__init__ os path) = (true, loaded os path doc).
Proof.
  intros Hread Hsections Hphrases Hfence.
  rewrite (validate_loaded os (__init__ os path) Hread).
  unfold error_findings, missing_sections, warning_findings, matching_phrases.
  rewrite filter_none by (intros s Hs; now rewrite (Hsections s Hs)).
  rewrite filter_none by exact Hphrases.
  rewrite Hfence. reflexivity.
Qed.

Lemma validate_compliant_document_witness :
  open_read example_os (Path example_os (py "good.md")) = ReadOk compliant_doc
  /\ validate example_os (__init__ example_os (py "good.md"))
     = (true, loaded example_os (py "good.md") compliant_doc).
Proof.
  split; [reflexivity |].
  apply validate_compliant_document.
  - reflexivity.
  - intros section Hin. simpl in Hin.
    repeat (destruct Hin as [<- | Hin]; [vm_compute; reflexivity |]).
    destruct Hin.
  - intros phrase Hin. simpl in Hin.
    repeat (destruct Hin as [<- | Hin]; [vm_compute; reflexivity |]).
    destruct Hin.
  - vm_compute. reflexivity.
Defined.

(** C2. For a document that was loaded, [validate()] leaves exactly one
    error for each required section whose heading pattern does not match,
    in the order of the table, and no other error; the error names the
    section with its underscores turned into spaces and its words
    capitalised; and [validate()] returns false as soon as one section is
    missing. *)
Theorem one_error_per_missing_section os path doc :
  open_read os (Path os path) = ReadOk doc ->
  let result := validate os (__init__ os path) in
  errors (snd result) = map missing_section_message (missing_sections doc)
  /\ (forall section, In section REQUIRED_SECTIONS ->
        occurrences (missing_section_message (fst section)) (errors (snd result))
        = if re_search (snd section) doc IGNORECASE then 0 else 1)
  /\ (forall e, In e (errors (snd result)) ->
        exists section, In section REQUIRED_SECTIONS
          /\ re_search (snd section) doc IGNORECASE = false
          /\ e = missing_section_message (fst section))
  /\ (missing_sections doc <> [] -> fst result = false)
  /\ map missing_section_message (map fst REQUIRED_SECTIONS)
     = map py [ "Missing required section: Context";
                "Missing required section: Task";
                "Missing required section: Requirements";
                "Missing required section: Validation";
                "Missing required section: Output Format";
                "Missing required section: Security" ]%string.
Proof.
  intros Hread result. subst result.
  rewrite (validate_loaded os (__init__ os path) Hread).
  cbn [fst snd errors __init__ app]. unfold error_findings.
  split; [reflexivity |]. split; [| split; [| split]].
  - intros section Hin. unfold missing_sections.
    simpl in Hin.
    repeat (destruct Hin as [<- | Hin];
      [ cbn [REQUIRED_SECTIONS filter fst snd];
        repeat match goal with
               | |- context [re_search ?p doc IGNORECASE] =>
                   generalize (re_search p doc IGNORECASE); intro
               end;
        repeat match goal with b : bool |- _ => destruct b end;
        vm_compute; reflexivity
      |]).
    destruct Hin.
  - intros e He. apply in_map_iff in He as (name & <- & Hname).
    unfold missing_sections in Hname.
    apply in_map_iff in Hname as (section & <- & Hsection).
    apply filter_In in Hsection as [Hin Hmiss].
    exists section. repeat split; [assumption |].
    now apply negb_true_iff.
  - intros Hmissing.
    destruct (map missing_section_message (missing_sections doc)) eqn:E;
      [| reflexivity].
    apply map_eq_nil in E. contradiction.
  - vm_compute. reflexivity.
Qed.

Lemma one_error_per_missing_section_witness :
  open_read example_os (Path example_os (py "context.md")) = ReadOk context_only_doc
  /\ errors (snd (validate example_os (__init__ example_os (py "context.md"))))
     = map py [ "Missing required section: Task";
                "Missing required section: Requirements";
                "Missing required section: Validation";
                "Missing required section: Output Format";
                "Missing required section: Security" ]%string
  /\ fst (validate example_os (__init__ example_os (py "context.md"))) = false.
Proof.
  split; [reflexivity |].
  destruct (@one_error_per_missing_section example_os (py "context.md")
              context_only_doc eq_refl) as (Herrors & _ & _ & Hfalse & _).
  split.
  - rewrite Herrors. vm_compute. reflexivity.
  - apply Hfalse. vm_compute. discriminate.
Defined.

(** C3 (as stated, refuted). A document in which two generic phrases match
    gets two warnings from the specificity check, not one. *)
Lemma check_specificity_warns_twice :
  warnings (snd (check_specificity
                   (loaded example_os (py "generic.md") generic_doc)))
  = [generic_phrase_warning; generic_phrase_warning]
  /\ warnings (snd (validate example_os (__init__ example_os (py "generic.md"))))
     = [generic_phrase_warning; generic_phrase_warning].
Proof. split; vm_compute; reflexivity. Qed.

(** C3 (amended). The specificity check appends one warning, always the
    same text, for each of the four generic phrase patterns that matches
    the document: as many warnings as phrases match, from none to four, and
    it changes nothing else. *)
Theorem check_specificity_warns_per_phrase self :
  check_specificity self
  = (tt, {| filepath := filepath self; content := content self;
            errors := errors self;
            warnings := warnings self
                        ++ repeat generic_phrase_warning
                             (length (matching_phrases (content self))) |})
  /\ length (matching_phrases (content self)) <= 4.
Proof.
  split.
  - rewrite check_specificity_spec. now rewrite map_const_repeat.
  - unfold matching_phrases. apply (filter_length_le _ generic_phrases).
Qed.

(** C4. When the file cannot be read, [validate()] returns false having
    appended exactly one error; the instance is as [load_file] left it, so
    none of the three checks ran, there is no warning and the content is
    still empty; the error says what went wrong: when the failure is
    [FileNotFoundError] it is "File not found: " followed by the path, and
    for any other exception it is "Error reading file: " followed by the
    text of the exception. *)
Theorem validate_load_failure os path :
  (forall doc, open_read os (Path os path) <> ReadOk doc) ->
  let result := validate os (__init__ os path) in
  fst result = false
  /\ length (errors (snd result)) = 1
  /\ warnings (snd result) = []
  /\ snd result = snd (load_file os (__init__ os path))
  /\ (open_read os (Path os path) = RaisesFileNotFoundError ->
      errors (snd result) = [py "File not found: " ++ path_str (Path os path)])
  /\ (forall str_e,
        open_read os (Path os path) = RaisesException str_e ->
        errors (snd result) = [py "Error reading file: " ++ str_e])
  /\ content (snd result) = []
  /\ filepath (snd result) = Path os path.
Proof.
  intros Hfail result. subst result.
  destruct (validate_not_loaded os (__init__ os path) Hfail) as [-> _].
  rewrite load_file_spec. cbn [fst snd __init__ filepath].
  destruct (open_read os (Path os path)) as [doc | | str_e] eqn:Hread.
  - now destruct (Hfail doc).
  - cbn [snd errors warnings content filepath app length].
    split; [reflexivity |]. split; [reflexivity |]. split; [reflexivity |].
    split; [reflexivity |]. split; [reflexivity |].
    split; [intros str_e H; discriminate H |]. split; reflexivity.
  - cbn [snd errors warnings content filepath app length].
    split; [reflexivity |]. split; [reflexivity |]. split; [reflexivity |].
    split; [reflexivity |]. split; [intros H; discriminate H |].
    split; [intros str_e' H; now injection H as -> |]. split; reflexivity.
Qed.

Lemma validate_load_failure_witness :
  validate example_os (__init__ example_os (py "none.md"))
  = (false,
     {| filepath := Path example_os (py "none.md"); content := [];
        errors := [py "File not found: none.md"]; warnings := [] |})
  /\ errors (snd (validate (unreadable_os (py "Is a directory"))
                    (__init__ (unreadable_os (py "Is a directory")) (py "docs"))))
     = [py "Error reading file: Is a directory"].
Proof.
  split.
  - destruct (@validate_load_failure example_os (py "none.md"))
      as (Hfalse & _ & _ & Hstate & _).
    + intros doc. vm_compute. discriminate.
    + rewrite (surjective_pairing (validate _ _)), Hfalse, Hstate.
      vm_compute. reflexivity.
  - destruct (@validate_load_failure (unreadable_os (py "Is a directory"))
                (py "docs"))
      as (_ & _ & _ & _ & _ & Herror & _).
    + intros doc. vm_compute. discriminate.
    + rewrite (Herror (py "Is a directory") eq_refl). vm_compute. reflexivity.
Defined.

(** C6. For a document that was loaded, the warning list that [validate()]
    leaves contains the missing-examples warning exactly when the document
    contains no code-fence marker. *)
Theorem examples_warning_iff_no_code_fence os path doc :
  open_read os (Path os path) = ReadOk doc ->
  In no_examples_warning (warnings (snd (validate os (__init__ os path))))
  <-> ~ substring (py "```") doc.
Proof.
  intros Hread.
  rewrite (validate_loaded os (__init__ os path) Hread).
  cbn [fst snd warnings __init__ app]. unfold warning_findings.
  rewrite <- str_in_spec, in_app_iff. split.
  - intros [Hin | Hin].
    + apply in_map_iff in Hin as (phrase & E & _).
      now destruct (warnings_differ E).
    + destruct (str_in (py "```") doc); [destruct Hin | discriminate].
  - intros Hno. right.
    destruct (str_in (py "```") doc); [now destruct Hno | now left].
Qed.

Lemma examples_warning_iff_no_code_fence_witness :
  In no_examples_warning
    (warnings (snd (validate example_os (__init__ example_os (py "context.md")))))
  /\ ~ In no_examples_warning
       (warnings (snd (validate example_os (__init__ example_os (py "good.md"))))).
Proof.
  split.
  - apply (@examples_warning_iff_no_code_fence example_os (py "context.md")
             context_only_doc eq_refl).
    rewrite <- str_in_spec. vm_compute. discriminate.
  - intros Hin.
    apply (@examples_warning_iff_no_code_fence example_os (py "good.md")
             compliant_doc eq_refl) in Hin.
    apply Hin. rewrite <- str_in_spec. vm_compute. reflexivity.
Defined.

(** ** Case-insensitive text is matched by the patterns *)

Lemma literal_ignorecase_same c c' ch :
  is_letter c = true ->
  ascii_lower ch = ascii_lower c' ->
  ascii_lower c' = ascii_lower c ->
  literal_ignorecase c ch = true.
Proof.
  intros Hletter Hch Hc. unfold literal_ignorecase.
  rewrite Hletter, Hch, Hc, N.eqb_refl. reflexivity.
Qed.

Lemma same_as_space ch : ascii_lower ch = ascii_lower 32%N -> is_space ch = true.
Proof.
  change (ascii_lower 32%N) with 32%N. unfold ascii_lower, is_upper.
  destruct (65 <=? ch)%N eqn:Hlo; simpl.
  - destruct (ch <=? 90)%N; [| now intros ->].
    apply N.leb_le in Hlo. lia.
  - now intros ->.
Qed.

(** Reading off the characters of a string known up to case. *)
Ltac eval_py_in H :=
  repeat match type of H with
         | context [py ?s] =>
             let v := eval vm_compute in (py s) in change (py s) with v in H
         end.

Ltac letters_of H :=
  unfold same_ignoring_case in H; eval_py_in H;
  repeat match goal with
         | F : Forall2 _ _ (_ :: _) |- _ => inversion F; subst; clear F
         | F : Forall2 _ _ [] |- _ => inversion F; subst; clear F
         end.

Ltac eval_pattern :=
  match goal with
  | |- Matches _ (sre_parse (py ?p)) _ =>
      let r := eval vm_compute in (sre_parse (py p)) in
      change (sre_parse (py p)) with r
  end.

Ltac match_letter :=
  apply Matches_once;
  [ simpl atom_matches;
    eapply literal_ignorecase_same; [reflexivity | eassumption | reflexivity]
  | ].

Ltac match_one_space :=
  match goal with
  | |- Matches _ (MaxRepeat1 CategorySpace :: _) (?c :: ?m) =>
      change (c :: m) with ([c] ++ m);
      apply Matches_repeat;
      [ discriminate
      | constructor; [simpl atom_matches; now apply same_as_space | constructor]
      | ]
  end.

Lemma build_me_a_matches pre phrase post :
  same_ignoring_case phrase (py "Build me a") ->
  re_search "build\s+me\s+a" (pre ++ phrase ++ post) IGNORECASE = true.
Proof.
  intros Hphrase. letters_of Hphrase.
  unfold re_search. apply search_spec.
  eexists pre, _, post. split; [reflexivity |].
  eval_pattern.
  repeat first [match_letter | match_one_space].
  constructor.
Qed.

Lemma valid_iff_empty (errs : list pystr) : (length errs =? 0) = true <-> errs = [].
Proof. rewrite Nat.eqb_eq. apply length_zero_iff_nil. Qed.

(** C5. [validate()] returns true exactly when the error list it leaves is
    empty, whatever the warnings; in particular a document that contains
    "Build me a" in any case and has all six headings validates, with a
    warning list that is not empty. *)
Theorem valid_iff_no_errors os path :
  (fst (validate os (__init__ os path)) = true
   <-> errors (snd (validate os (__init__ os path))) = [])
  /\ (forall doc pre phrase post,
        open_read os (Path os path) = ReadOk doc ->
        doc = pre ++ phrase ++ post ->
        same_ignoring_case phrase (py "Build me a") ->
        (forall section, In section REQUIRED_SECTIONS ->
           re_search (snd section) doc IGNORECASE = true) ->
        fst (validate os (__init__ os path)) = true
        /\ warnings (snd (validate os (__init__ os path))) <> []).
Proof.
  split.
  - destruct (open_read os (Path os path)) as [doc | | str_e] eqn:Hread.
    + rewrite (validate_loaded os (__init__ os path) Hread).
      cbn [fst snd errors]. apply valid_iff_empty.
    + rewrite (validate_not_found os (__init__ os path) Hread).
      cbn [fst snd errors __init__ app]. split; discriminate.
    + rewrite (validate_exception os (__init__ os path) Hread).
      cbn [fst snd errors __init__ app]. split; discriminate.
  - intros doc pre phrase post Hread -> Hphrase Hsections.
    rewrite (validate_loaded os (__init__ os path) Hread).
    cbn [fst snd errors warnings __init__ app].
    unfold error_findings, missing_sections, warning_findings, matching_phrases.
    rewrite filter_none by (intros s Hs; now rewrite (Hsections s Hs)).
    split; [reflexivity |].
    unfold generic_phrases. cbn [filter].
    rewrite (build_me_a_matches pre post Hphrase). discriminate.
Qed.

Lemma valid_iff_no_errors_witness :
  fst (validate example_os (__init__ example_os (py "build.md"))) = true
  /\ warnings (snd (validate example_os (__init__ example_os (py "build.md"))))
     = [generic_phrase_warning].
Proof.
  destruct (proj2 (valid_iff_no_errors example_os (py "build.md"))
              build_me_a_doc (compliant_doc ++ py "Please ") (py "BUILD ME A")
              (py " parser." ++ nl)) as [Hvalid _].
  - reflexivity.
  - vm_compute. reflexivity.
  - unfold same_ignoring_case. vm_compute. repeat constructor.
  - intros section Hin. simpl in Hin.
    repeat (destruct Hin as [<- | Hin]; [vm_compute; reflexivity |]).
    destruct Hin.
  - split; [exact Hvalid | vm_compute; reflexivity].
Defined.

(** ** Calling [validate] again *)

(** C7 (as stated, refuted). A second [validate()] on the same instance does
    not leave the lists of the first call: for the file that holds only a
    Context heading, five errors and one warning become ten and two. *)
Lemma validate_twice_accumulates :
  let once := snd (validate example_os (__init__ example_os (py "context.md"))) in
  let twice := snd (validate example_os once) in
  length (errors once) = 5 /\ length (warnings once) = 1
  /\ length (errors twice) = 10 /\ length (warnings twice) = 2.
Proof. vm_compute. repeat split. Qed.

(** C7 (amended). On freshly constructed validators the findings are a
    function of the file's content alone: two files with the same content
    give identical error and warning lists. A second [validate()] on the
    same instance appends the same findings again, so each list becomes the
    first call's list twice over. *)
Theorem validate_again os path :
  (forall os' path' doc,
      open_read os (Path os path) = ReadOk doc ->
      open_read os' (Path os' path') = ReadOk doc ->
      errors (snd (validate os' (__init__ os' path')))
      = errors (snd (validate os (__init__ os path)))
      /\ warnings (snd (validate os' (__init__ os' path')))
         = warnings (snd (validate os (__init__ os path))))
  /\ (let once := snd (validate os (__init__ os path)) in
      let twice := snd (validate os once) in
      errors twice = errors once ++ errors once
      /\ warnings twice = warnings once ++ warnings once).
Proof.
  split.
  - intros os' path' doc Hread Hread'.
    rewrite (validate_loaded os (__init__ os path) Hread).
    rewrite (validate_loaded os' (__init__ os' path') Hread').
    split; reflexivity.
  - cbv zeta.
    destruct (open_read os (Path os path)) as [doc | | str_e] eqn:Hread.
    + rewrite (validate_loaded os (__init__ os path) Hread).
      cbn [snd __init__ errors warnings filepath app].
      rewrite (validate_loaded os _ (doc := doc)) by exact Hread.
      split; reflexivity.
    + rewrite (validate_not_found os (__init__ os path) Hread).
      cbn [snd __init__ errors warnings filepath content app].
      rewrite validate_not_found by exact Hread.
      split; reflexivity.
    + rewrite (validate_exception os (__init__ os path) Hread).
      cbn [snd __init__ errors warnings filepath content app].
      rewrite (validate_exception os _ (str_e := str_e)) by exact Hread.
      split; reflexivity.
Qed.

Lemma validate_again_witness :
  errors (snd (validate (os_with [(py "copy.md", context_only_doc)])
                 (__init__ (os_with [(py "copy.md", context_only_doc)])
                    (py "copy.md"))))
  = errors (snd (validate example_os (__init__ example_os (py "context.md")))).
Proof.
  apply (proj1 (validate_again example_os (py "context.md"))
           (os_with [(py "copy.md", context_only_doc)]) (py "copy.md")
           context_only_doc); reflexivity.
Defined.

(** ** The command line *)

Lemma print_report_success self :
  snd (print_report self) = match errors self with [] => true | _ :: _ => false end.
Proof.
  unfold print_report. destruct (errors self), (warnings self); reflexivity.
Qed.

Lemma main_on_path os program path rest :
  main os (program :: path :: rest)
  = let self := snd (validate os (__init__ os path)) in
    match errors self with
    | [] => (fst (print_report self), 0%Z)
    | _ :: _ => (fst (print_report self) ++ [see_rules], 1%Z)
    end.
Proof.
  unfold main. cbn [length Nat.ltb Nat.leb nth].
  destruct (validate os (__init__ os path)) as [valid self]. cbn [snd].
  pose proof (print_report_success self) as Hsuccess.
  destruct (print_report self) as [report success]. cbn [fst snd] in *.
  subst success. destruct (errors self); reflexivity.
Qed.

(** C8. The exit status of [main]: with fewer than one path argument it
    prints the usage text, validates nothing, and exits with 1; otherwise
    it exits with 1 when the validation of the path left an error and with
    0 when it left none, whatever the warnings. *)
Theorem main_exit_status os argv :
  (length argv < 2 -> main os argv = (usage, 1%Z))
  /\ (2 <= length argv ->
      let self := snd (validate os (__init__ os (nth 1 argv []))) in
      (errors self <> [] -> snd (main os argv) = 1%Z)
      /\ (errors self = [] -> snd (main os argv) = 0%Z)).
Proof.
  split.
  - intros Hlen. unfold main.
    apply Nat.ltb_lt in Hlen. now rewrite Hlen.
  - intros Hlen.
    destruct argv as [| program [| path rest]]; simpl in Hlen; try lia.
    rewrite main_on_path. cbn [nth]. cbv zeta.
    destruct (errors (snd (validate os (__init__ os path)))) as [| e errs].
    + split; [intros H; now destruct H | reflexivity].
    + split; [reflexivity | discriminate].
Qed.

Lemma main_exit_status_witness :
  snd (main example_os []) = 1%Z
  /\ snd (main example_os [py "prompt-validator.py"]) = 1%Z
  /\ snd (main example_os [py "prompt-validator.py"; py "context.md"]) = 1%Z
  /\ snd (main example_os [py "prompt-validator.py"; py "build.md"]) = 0%Z.
Proof.
  split; [| split; [| split]].
  - rewrite (proj1 (main_exit_status example_os [])); [reflexivity | simpl; lia].
  - rewrite (proj1 (main_exit_status example_os [py "prompt-validator.py"]));
      [reflexivity | simpl; lia].
  - apply (proj2 (main_exit_status example_os
                    [py "prompt-validator.py"; py "context.md"]));
      [simpl; lia | vm_compute; discriminate].
  - apply (proj2 (main_exit_status example_os
                    [py "prompt-validator.py"; py "build.md"]));
      [simpl; lia | vm_compute; reflexivity].
Defined.

Lemma report_headers_app out out' :
  report_headers (out ++ out') = report_headers out + report_headers out'.
Proof. unfold report_headers. now rewrite filter_app, length_app. Qed.

Lemma report_headers_bullets findings : report_headers (bullets findings) = 0.
Proof.
  unfold report_headers, bullets.
  induction findings as [| finding findings IH]; [reflexivity |].
  cbn [map filter]. exact IH.
Qed.

Lemma report_headers_print_report self :
  report_headers (fst (print_report self)) = 1.
Proof.
  unfold print_report.
  destruct (errors self) as [| e errs], (warnings self) as [| w warns];
    cbn [fst]; rewrite ?report_headers_app, ?report_headers_bullets;
    reflexivity.
Qed.

(** C9 (what the code does instead). [main] reads [sys.argv[1]] only: every
    further path argument is ignored, one report is printed however many
    paths are given, and a second path that does not exist leaves the exit
    status at 0. *)
Theorem main_validates_first_path_only os program path rest :
  main os (program :: path :: rest) = main os [program; path]
  /\ report_headers (fst (main os (program :: path :: rest))) = 1
  /\ main example_os [py "prompt-validator.py"; py "good.md"; py "none.md"]
     = (fst (print_report (loaded example_os (py "good.md") compliant_doc)), 0%Z).
Proof.
  split; [now rewrite !main_on_path |]. split.
  - rewrite main_on_path. cbv zeta.
    destruct (errors (snd (validate os (__init__ os path)))); cbn [fst];
      rewrite ?report_headers_app, report_headers_print_report; reflexivity.
  - vm_compute. reflexivity.
Qed.

(** ** Headings are found wherever they stand *)

Lemma message_names_section section section' :
  In section REQUIRED_SECTIONS -> In section' REQUIRED_SECTIONS ->
  missing_section_message (fst section) = missing_section_message (fst section') ->
  section = section'.
Proof.
  intros Hin Hin' E. simpl in Hin, Hin'.
  repeat (destruct Hin as [<- | Hin]; [| try (now destruct Hin)]);
    repeat (destruct Hin' as [<- | Hin']; [| try (now destruct Hin')]);
    first [reflexivity | vm_compute in E; discriminate E].
Qed.

Lemma section_reported_iff doc section :
  In section REQUIRED_SECTIONS ->
  In (missing_section_message (fst section)) (error_findings doc)
  <-> re_search (snd section) doc IGNORECASE = false.
Proof.
  intros Hin. unfold error_findings, missing_sections.
  rewrite map_map, in_map_iff. split.
  - intros (section' & E & Hmissing).
    apply filter_In in Hmissing as [Hin' Hmiss].
    rewrite (message_names_section Hin Hin' (eq_sym E)).
    now apply negb_true_iff.
  - intros Hmiss. exists section. split; [reflexivity |].
    apply filter_In. split; [assumption | now apply negb_true_iff].
Qed.

Ltac match_hash :=
  apply Matches_once; [reflexivity |].

Ltac match_whitespace :=
  match goal with
  | Hne : ?ws <> [], Hall : Forall _ ?ws
    |- Matches _ (MaxRepeat1 CategorySpace :: _) (?ws ++ _) =>
      apply Matches_repeat; [exact Hne | exact Hall |]
  end.

Ltac words_of H :=
  repeat match goal with
         | T : heading_text (_ :: _) _ |- _ => inversion T; subst; clear T
         | T : heading_text [] _ |- _ => inversion T; subst; clear T
         | W : whitespace _ |- _ => destruct W
         | S : same_ignoring_case _ _ |- _ => letters_of S
         end.

Lemma heading_matches section pre text post :
  In section REQUIRED_SECTIONS ->
  heading_text (section_words (fst section)) text ->
  re_search (snd section) (pre ++ py "##" ++ text ++ post) IGNORECASE = true.
Proof.
  intros Hin Hheading. unfold re_search. apply search_spec.
  exists pre, (py "##" ++ text), post.
  split; [now rewrite <- app_assoc |].
  simpl in Hin.
  repeat (destruct Hin as [<- | Hin]; [| try (now destruct Hin)]);
    cbn [fst snd] in *; vm_compute in Hheading; words_of Hheading;
    eval_pattern; change (py "##") with [35; 35]%N; cbn [app];
    do 2 match_hash;
    repeat first [match_letter | match_whitespace];
    constructor.
Qed.

(** C10 (as stated, refuted). "##", a space and the section name
    [output_format] do not make the output-format section present: the
    pattern wants whitespace between "Output" and "Format", so the section
    is reported missing. *)
Lemma underscore_heading_is_missing :
  underscore_heading_doc = py "##" ++ py " " ++ py "output_format" ++ nl
  /\ re_search "##\s+Output\s+Format" underscore_heading_doc IGNORECASE = false
  /\ In (missing_section_message "output_format")
       (errors (snd (validate example_os (__init__ example_os (py "underscore.md"))))).
Proof.
  split; [reflexivity |]. split; [vm_compute; reflexivity |].
  vm_compute. do 4 right. left. reflexivity.
Qed.

(** C10 (amended). A required section counts as present as soon as the
    document contains, at any position (in the middle of a line, inside a
    code fence, after a further [#]), the text "##" followed by the words
    of the section name, in any case, each word preceded by one or more
    whitespace characters (so [output_format] is written "Output Format",
    with whitespace and not an underscore between the words); no
    missing-section error is then reported for that section. *)
Theorem heading_found_anywhere os path doc section pre text post :
  open_read os (Path os path) = ReadOk doc ->
  In section REQUIRED_SECTIONS ->
  heading_text (section_words (fst section)) text ->
  doc = pre ++ py "##" ++ text ++ post ->
  re_search (snd section) doc IGNORECASE = true
  /\ ~ In (missing_section_message (fst section))
         (errors (snd (validate os (__init__ os path)))).
Proof.
  intros Hread Hin Hheading ->.
  pose proof (heading_matches pre post Hin Hheading) as Hfound.
  split; [exact Hfound |].
  rewrite (validate_loaded os (__init__ os path) Hread).
  cbn [snd errors __init__ app].
  rewrite (section_reported_iff _ Hin), Hfound. discriminate.
Qed.

Lemma heading_found_anywhere_witness :
  re_search "##\s+Context" deep_heading_doc IGNORECASE = true
  /\ ~ In (missing_section_message "context")
         (errors (snd (validate example_os (__init__ example_os (py "deep.md"))))).
Proof.
  apply (@heading_found_anywhere example_os (py "deep.md") deep_heading_doc
           ("context", "##\s+Context")%string
           (py "```" ++ nl ++ py "see #") (py " Context") (nl ++ py "```" ++ nl)).
  - reflexivity.
  - simpl. left. reflexivity.
  - apply (@heading_word [32%N] (py "context") (py "Context") [] []).
    + split; [discriminate | repeat constructor].
    + unfold same_ignoring_case. vm_compute. repeat constructor.
    + constructor.
  - vm_compute. reflexivity.
Defined.

(** * Further properties *)

(** ** What [validate] keeps and adds *)

Lemma error_findings_bound doc : length (error_findings doc) <= 6.
Proof.
  unfold error_findings, missing_sections. rewrite !length_map.
  apply (filter_length_le _ REQUIRED_SECTIONS).
Qed.

Lemma warning_findings_bound doc : length (warning_findings doc) <= 5.
Proof.
  unfold warning_findings, matching_phrases. rewrite length_app, length_map.
  assert (H : length (filter (fun phrase => re_search phrase doc IGNORECASE)
                        generic_phrases) <= 4)
    by apply (filter_length_le _ generic_phrases).
  destruct (str_in (py "```") doc); cbn [length]; lia.
Qed.

(** X1. [validate()] only appends: on any instance it keeps the path and the
    findings that are already there, in place, and adds at most six errors
    and at most five warnings behind them. *)
Theorem validate_only_appends os self :
  filepath (snd (validate os self)) = filepath self
  /\ (exists new, errors (snd (validate os self)) = errors self ++ new
                  /\ length new <= 6)
  /\ (exists new, warnings (snd (validate os self)) = warnings self ++ new
                  /\ length new <= 5).
Proof.
  destruct (open_read os (filepath self)) as [doc | | str_e] eqn:Hread.
  - rewrite (validate_loaded os self Hread). cbn [snd filepath errors warnings].
    split; [reflexivity |]. split.
    + exists (error_findings doc). split; [reflexivity | apply error_findings_bound].
    + exists (warning_findings doc).
      split; [reflexivity | apply warning_findings_bound].
  - rewrite (validate_not_found os self Hread). cbn [snd filepath errors warnings].
    split; [reflexivity |]. split.
    + eexists. split; [reflexivity | simpl; lia].
    + exists []. split; [now rewrite app_nil_r | simpl; lia].
  - rewrite (validate_exception os self Hread). cbn [snd filepath errors warnings].
    split; [reflexivity |]. split.
    + eexists. split; [reflexivity | simpl; lia].
    + exists []. split; [now rewrite app_nil_r | simpl; lia].
Qed.

(** X2. The warnings of a loaded document come in the order of the checks: one
    generic-phrase warning for each phrase that matches, and after them the
    missing-examples warning, at most once and always last. *)
Theorem warnings_in_check_order os path doc :
  open_read os (Path os path) = ReadOk doc ->
  warnings (snd (validate os (__init__ os path)))
  = repeat generic_phrase_warning (length (matching_phrases doc))
    ++ (if str_in (py "```") doc then [] else [no_examples_warning]).
Proof.
  intros Hread. rewrite (validate_loaded os (__init__ os path) Hread).
  cbn [snd warnings __init__ app]. unfold warning_findings.
  now rewrite map_const_repeat.
Qed.

Lemma warnings_in_check_order_witness :
  warnings (snd (validate example_os (__init__ example_os (py "context.md"))))
  = [no_examples_warning]
  /\ warnings (snd (validate (os_with [(py "w.md", py "fix this, make it work")])
                      (__init__ (os_with [(py "w.md", py "fix this, make it work")])
                         (py "w.md"))))
     = [generic_phrase_warning; generic_phrase_warning; no_examples_warning].
Proof.
  split.
  - rewrite (@warnings_in_check_order example_os (py "context.md")
               context_only_doc eq_refl).
    vm_compute. reflexivity.
  - rewrite (@warnings_in_check_order
               (os_with [(py "w.md", py "fix this, make it work")]) (py "w.md")
               (py "fix this, make it work") eq_refl).
    vm_compute. reflexivity.
Defined.

Lemma NoDup_map_filter {A B} (g : A -> B) (f : A -> bool) l :
  NoDup (map g l) -> NoDup (map g (filter f l)).
Proof.
  induction l as [| x l IH]; simpl; intros H; [constructor |].
  inversion H as [| y ys Hnotin Hrest]; subst.
  destruct (f x); [| now apply IH].
  simpl. constructor; [| now apply IH].
  intros Hin. apply Hnotin.
  apply in_map_iff in Hin as (z & E & Hz).
  apply filter_In in Hz as [Hz _].
  apply in_map_iff. now exists z.
Qed.

Lemma section_messages_differ :
  NoDup (map (fun section : string * string => missing_section_message (fst section))
           REQUIRED_SECTIONS).
Proof.
  vm_compute.
  repeat (constructor;
          [ simpl; intros H;
            repeat (destruct H as [H | H]; [discriminate H |]); exact H
          | ]).
  constructor.
Qed.

(** X3. A fresh validator never reports the same error twice, whatever the file
    (the warning list, by contrast, may repeat the generic-phrase warning). *)
Theorem errors_never_repeat os path :
  NoDup (errors (snd (validate os (__init__ os path)))).
Proof.
  destruct (open_read os (Path os path)) as [doc | | str_e] eqn:Hread.
  - rewrite (validate_loaded os (__init__ os path) Hread).
    cbn [snd errors __init__ app].
    unfold error_findings, missing_sections. rewrite map_map.
    apply NoDup_map_filter, section_messages_differ.
  - rewrite (validate_not_found os (__init__ os path) Hread).
    cbn [snd errors __init__ app]. repeat constructor. intros [].
  - rewrite (validate_exception os (__init__ os path) Hread).
    cbn [snd errors __init__ app]. repeat constructor. intros [].
Qed.

(** X4. A read failure other than a missing file leaves exactly one error,
    "Error reading file: " followed by the text of the exception; nothing
    else changes and [validate()] returns false. *)
Theorem validate_read_error os path str_e :
  open_read os (Path os path) = RaisesException str_e ->
  validate os (__init__ os path)
  = (false,
     {| filepath := Path os path; content := [];
        errors := [py "Error reading file: " ++ str_e]; warnings := [] |}).
Proof.
  intros Hread. now rewrite (validate_exception os (__init__ os path) Hread).
Qed.

Lemma validate_read_error_witness :
  errors (snd (validate (unreadable_os (py "[Errno 13] Permission denied"))
                 (__init__ (unreadable_os (py "[Errno 13] Permission denied"))
                    (py "locked.md"))))
  = [py "Error reading file: [Errno 13] Permission denied"].
Proof.
  rewrite (@validate_read_error (unreadable_os (py "[Errno 13] Permission denied"))
             (py "locked.md") (py "[Errno 13] Permission denied") eq_refl).
  vm_compute. reflexivity.
Defined.

(** ** A heading needs its marker *)

Lemma heading_pattern_shape r m :
  Matches IGNORECASE
    (Once (Literal 35) :: Once (Literal 35) :: MaxRepeat1 CategorySpace :: r) m ->
  exists c rest, m = 35%N :: 35%N :: c :: rest /\ is_space c = true.
Proof.
  intros H.
  inversion H as [| a1 r1 c1 m1 Hc1 H1 |]; subst; clear H.
  inversion H1 as [| a2 r2 c2 m2 Hc2 H2 |]; subst; clear H1.
  inversion H2 as [| | a3 r3 cs m3 Hne Hall H3]; subst; clear H2.
  change ((c1 =? 35)%N = true) in Hc1. change ((c2 =? 35)%N = true) in Hc2.
  apply N.eqb_eq in Hc1, Hc2. subst.
  destruct Hall as [| c cs Hc Hall]; [congruence |].
  exists c, (cs ++ m3). split; [reflexivity | exact Hc].
Qed.

Lemma section_needs_marker section doc :
  In section REQUIRED_SECTIONS ->
  re_search (snd section) doc IGNORECASE = true ->
  exists pre c post, doc = pre ++ py "##" ++ c :: post /\ is_space c = true.
Proof.
  intros Hin Hfound. unfold re_search in Hfound.
  apply search_spec in Hfound as (pre & m & post & -> & Hm).
  assert (Hshape : exists c rest, m = 35%N :: 35%N :: c :: rest /\ is_space c = true).
  { simpl in Hin.
    repeat (destruct Hin as [<- | Hin]; [| try (now destruct Hin)]);
      cbn [snd] in Hm;
      match type of Hm with
      | Matches _ (sre_parse (py ?p)) _ =>
          let r := eval vm_compute in (sre_parse (py p)) in
          change (sre_parse (py p)) with r in Hm
      end;
      exact (heading_pattern_shape Hm). }
  destruct Hshape as (c & rest & -> & Hc).
  exists pre, c, (rest ++ post). split; [reflexivity | exact Hc].
Qed.

Lemma filter_all {A} (f : A -> bool) l :
  (forall x, In x l -> f x = true) -> filter f l = l.
Proof.
  induction l as [| x l IH]; intros H; simpl; [reflexivity |].
  rewrite (H x (or_introl eq_refl)). f_equal. apply IH.
  intros y Hy. apply H. now right.
Qed.

Lemma filter_nil_none {A} (f : A -> bool) l :
  filter f l = [] -> forall x, In x l -> f x = false.
Proof.
  induction l as [| y l IH]; simpl; intros H x Hin; [destruct Hin |].
  destruct (f y) eqn:Hy; [discriminate |].
  destruct Hin as [<- | Hin]; [exact Hy | now apply IH].
Qed.

(** X5. A document in which no "##" is directly followed by a whitespace
    character has none of the six sections: [validate()] reports all six as
    missing, in the order of the table, and returns false. The empty
    document and a document whose headings are written "##Context" are of
    this kind. *)
Theorem no_marker_all_sections_missing os path doc :
  open_read os (Path os path) = ReadOk doc ->
  (forall pre c post, doc = pre ++ py "##" ++ c :: post -> is_space c = false) ->
  fst (validate os (__init__ os path)) = false
  /\ errors (snd (validate os (__init__ os path)))
     = map missing_section_message (map fst REQUIRED_SECTIONS).
Proof.
  intros Hread Hnone.
  rewrite (validate_loaded os (__init__ os path) Hread).
  cbn [fst snd errors __init__ app].
  assert (E : error_findings doc
              = map missing_section_message (map fst REQUIRED_SECTIONS)).
  { unfold error_findings, missing_sections. rewrite filter_all; [reflexivity |].
    intros section Hin. apply negb_true_iff.
    destruct (re_search (snd section) doc IGNORECASE) eqn:Hfound; [| reflexivity].
    destruct (section_needs_marker _ Hin Hfound) as (pre & c & post & Hdoc & Hc).
    now rewrite (Hnone _ _ _ Hdoc) in Hc. }
  rewrite E. split; reflexivity.
Qed.

Ltac no_marker_in doc :=
  let E := fresh "E" in
  let pre := fresh "pre" in
  intros pre ? ? E;
  let v := eval vm_compute in doc in change doc with v in E;
  change (py "##") with [35; 35]%N in E;
  repeat (destruct pre as [| ? pre]; cbn [app] in E;
          [ inversion E; subst; reflexivity
          | first [discriminate E | injection E as _ E] ]).

Lemma no_marker_all_sections_missing_witness :
  length (errors (snd (validate (os_with [(py "tight.md", no_space_doc)])
                         (__init__ (os_with [(py "tight.md", no_space_doc)])
                            (py "tight.md"))))) = 6
  /\ length (errors (snd (validate (os_with [(py "empty.md", [])])
                            (__init__ (os_with [(py "empty.md", [])])
                               (py "empty.md"))))) = 6.
Proof.
  split.
  - rewrite (proj2 (@no_marker_all_sections_missing
                      (os_with [(py "tight.md", no_space_doc)]) (py "tight.md")
                      no_space_doc eq_refl ltac:(no_marker_in no_space_doc))).
    reflexivity.
  - rewrite (proj2 (@no_marker_all_sections_missing
                      (os_with [(py "empty.md", [])]) (py "empty.md")
                      [] eq_refl ltac:(no_marker_in (@nil N)))).
    reflexivity.
Defined.

(** ** The report *)

Lemma print_report_lines self :
  fst (print_report self)
  = report_header self
    ++ match errors self, warnings self with
       | [], [] => [passed_line]
       | _, _ =>
           match errors self with
           | [] => []
           | _ :: _ => [errors_title] ++ bullets (errors self) ++ [[]]
           end
           ++ match warnings self with
              | [] => []
              | _ :: _ => [warnings_title] ++ bullets (warnings self) ++ [[]]
              end
       end.
Proof.
  unfold print_report. destruct (errors self), (warnings self); reflexivity.
Qed.

Lemma bullet_lines_app out out' :
  bullet_lines (out ++ out') = bullet_lines out ++ bullet_lines out'.
Proof. apply filter_app. Qed.

Lemma bullet_lines_bullets findings : bullet_lines (bullets findings) = bullets findings.
Proof.
  unfold bullet_lines, bullets.
  induction findings as [| finding findings IH]; [reflexivity |].
  cbn [map filter].
  change (startswith (py "  - " ++ finding) (py "  - ")) with true.
  cbv iota. now rewrite IH.
Qed.

Lemma bullets_app findings findings' :
  bullets (findings ++ findings') = bullets findings ++ bullets findings'.
Proof. apply map_app. Qed.

Lemma bullet_lines_header self : bullet_lines (report_header self) = [].
Proof. reflexivity. Qed.

(** X6. The bullets of a report are the findings: every error, then every
    warning, each once and in the order in which it was found. *)
Theorem report_lists_every_finding self :
  bullet_lines (fst (print_report self)) = bullets (errors self ++ warnings self).
Proof.
  rewrite print_report_lines, bullet_lines_app, bullet_lines_header, bullets_app.
  destruct (errors self) as [| e errs], (warnings self) as [| w warns];
    rewrite ?bullet_lines_app, ?bullet_lines_bullets;
    repeat match goal with
           | |- context [bullet_lines [?line]] =>
               change (bullet_lines [line]) with (@nil pystr)
           end;
    change (bullet_lines []) with (@nil pystr);
    cbn [app]; rewrite ?app_nil_r; reflexivity.
Qed.

Ltac other_line :=
  repeat match goal with
         | H : In _ (_ ++ _) |- _ => apply in_app_or in H; destruct H as [H | H]
         | H : In _ (bullets _) |- _ =>
             apply in_map_iff in H; destruct H as (? & H & _)
         | H : In _ (report_header _) |- _ => unfold report_header in H
         | H : In _ (_ :: _) |- _ => destruct H as [H | H]
         | H : In _ [] |- _ => destruct H
         | H : _ = _ |- _ => first [discriminate H | vm_compute in H; discriminate H]
         end.

Ltac find_line :=
  solve [repeat first [left; reflexivity | apply in_or_app; right]].

(** X7. What a report shows: the line "All checks passed!" exactly when there
    is neither an error nor a warning, the ERRORS block exactly when there
    is an error, the WARNINGS block exactly when there is a warning. A file
    with warnings only is valid but is not reported as having passed. *)
Theorem report_blocks self :
  (In passed_line (fst (print_report self))
   <-> errors self = [] /\ warnings self = [])
  /\ (In errors_title (fst (print_report self)) <-> errors self <> [])
  /\ (In warnings_title (fst (print_report self)) <-> warnings self <> []).
Proof.
  rewrite print_report_lines.
  destruct (errors self) as [| e errs], (warnings self) as [| w warns];
    (split; [| split]); split; intros H;
    first [ find_line
          | exfalso; destruct H as [? ?]; discriminate
          | now destruct H
          | other_line; first [split; reflexivity | discriminate] ].
Qed.

(** X8. [print_report()] after [validate()] returns what [validate()] returned,
    on any instance. *)
Theorem print_report_returns_validity os self :
  snd (print_report (snd (validate os self))) = fst (validate os self).
Proof.
  rewrite print_report_success.
  destruct (open_read os (filepath self)) as [doc | | str_e] eqn:Hread.
  - rewrite (validate_loaded os self Hread). cbn [fst snd errors].
    now destruct (errors self ++ error_findings doc).
  - rewrite (validate_not_found os self Hread). cbn [fst snd errors].
    now destruct (errors self).
  - rewrite (validate_exception os self Hread). cbn [fst snd errors].
    now destruct (errors self).
Qed.

(** ** What [main] prints and returns *)

Lemma print_report_no_trailer self : ~ In see_rules (fst (print_report self)).
Proof.
  rewrite print_report_lines. intros H.
  destruct (errors self) as [| e errs], (warnings self) as [| w warns];
    other_line.
Qed.

(** X9. When a path is given, the pointer to the rules in README.md is printed
    exactly when [main] exits with status 1; a run that ends with status 0
    never prints it, warnings or not. *)
Theorem trailer_iff_failure os program path rest :
  In see_rules (fst (main os (program :: path :: rest)))
  <-> snd (main os (program :: path :: rest)) = 1%Z.
Proof.
  rewrite main_on_path. cbv zeta.
  destruct (errors (snd (validate os (__init__ os path)))) as [| e errs];
    cbn [fst snd].
  - split; [| discriminate].
    intros H. now destruct (print_report_no_trailer _ H).
  - split; [reflexivity |]. intros _. apply in_or_app. right. now left.
Qed.

(** X10. [main] exits with status 0 exactly when it is given a path, the file at
    the first path can be read, and each of the six heading patterns
    matches its text. Generic phrases and missing examples never change the
    exit status. *)
Theorem exit_zero_iff os argv :
  snd (main os argv) = 0%Z
  <-> exists program path rest doc,
        argv = program :: path :: rest
        /\ open_read os (Path os path) = ReadOk doc
        /\ forall section, In section REQUIRED_SECTIONS ->
             re_search (snd section) doc IGNORECASE = true.
Proof.
  split.
  - destruct argv as [| program [| path rest]]; try discriminate.
    rewrite main_on_path. cbv zeta.
    destruct (open_read os (Path os path)) as [doc | | str_e] eqn:Hread.
    + rewrite (validate_loaded os (__init__ os path) Hread).
      cbn [snd errors __init__ app].
      destruct (error_findings doc) eqn:Hnone; [| discriminate].
      intros _. exists program, path, rest, doc.
      split; [reflexivity |]. split; [exact Hread |].
      intros section Hin.
      unfold error_findings, missing_sections in Hnone.
      apply map_eq_nil, map_eq_nil in Hnone.
      apply negb_false_iff.
      now apply (filter_nil_none _ _ Hnone).
    + rewrite (validate_not_found os (__init__ os path) Hread). discriminate.
    + rewrite (validate_exception os (__init__ os path) Hread). discriminate.
  - intros (program & path & rest & doc & -> & Hread & Hsections).
    rewrite main_on_path. cbv zeta.
    rewrite (validate_loaded os (__init__ os path) Hread).
    cbn [snd errors __init__ app].
    unfold error_findings, missing_sections.
    rewrite filter_none by (intros s Hs; now rewrite (Hsections s Hs)).
    reflexivity.
Qed.

Lemma exit_zero_iff_witness :
  snd (main example_os [py "prompt-validator.py"; py "build.md"]) = 0%Z.
Proof.
  apply (proj2 (exit_zero_iff example_os [py "prompt-validator.py"; py "build.md"])).
  exists (py "prompt-validator.py"), (py "build.md"), [], build_me_a_doc.
  split; [reflexivity |]. split; [reflexivity |].
  intros section Hin. simpl in Hin.
  repeat (destruct Hin as [<- | Hin]; [vm_compute; reflexivity |]).
  destruct Hin.
Defined.

(** X11. For a file that does not exist [main] prints the report header with
    the file's name, an ERRORS block whose only bullet is "File not found: "
    with the path, and the pointer to the rules; it exits with status 1. *)
Theorem main_reports_missing_file os program path rest :
  open_read os (Path os path) = RaisesFileNotFoundError ->
  main os (program :: path :: rest)
  = (report_header (__init__ os path)
       ++ [ errors_title;
            py "  - File not found: " ++ path_str (Path os path);
            [];
            see_rules ],
     1%Z).
Proof.
  intros Hread. rewrite main_on_path. cbv zeta.
  rewrite (validate_not_found os (__init__ os path) Hread).
  cbn [snd errors __init__ app]. rewrite print_report_lines.
  cbn [errors warnings filepath bullets map app]. rewrite <- app_assoc.
  reflexivity.
Qed.

Lemma main_reports_missing_file_witness :
  snd (main example_os [py "prompt-validator.py"; py "none.md"]) = 1%Z
  /\ In (py "  - File not found: none.md")
       (fst (main example_os [py "prompt-validator.py"; py "none.md"])).
Proof.
  rewrite (@main_reports_missing_file example_os (py "prompt-validator.py")
             (py "none.md") [] eq_refl).
  split; [reflexivity |]. cbn [fst]. apply in_or_app. right.
  right. left. reflexivity.
Defined.

(** X12. For a document that meets all the rules [main] prints the report
    header and the line "All checks passed!", nothing else, and exits with
    status 0. *)
Theorem main_reports_success os program path rest doc :
  open_read os (Path os path) = ReadOk doc ->
  (forall section, In section REQUIRED_SECTIONS ->
     re_search (snd section) doc IGNORECASE = true) ->
  (forall phrase, In phrase generic_phrases ->
     re_search phrase doc IGNORECASE = false) ->
  str_in (py "```") doc = true ->
  main os (program :: path :: rest)
  = (report_header (__init__ os path) ++ [passed_line], 0%Z).
Proof.
  intros Hread Hsections Hphrases Hfence.
  rewrite main_on_path. cbv zeta.
  rewrite (validate_loaded os (__init__ os path) Hread).
  cbn [snd errors warnings __init__ app].
  unfold error_findings, missing_sections, warning_findings, matching_phrases.
  rewrite filter_none by (intros s Hs; now rewrite (Hsections s Hs)).
  rewrite filter_none by exact Hphrases.
  rewrite Hfence. cbn [map app]. rewrite print_report_lines. reflexivity.
Qed.

Lemma main_reports_success_witness :
  main example_os [py "prompt-validator.py"; py "good.md"]
  = (report_header (__init__ example_os (py "good.md")) ++ [passed_line], 0%Z).
Proof.
  apply (@main_reports_success example_os (py "prompt-validator.py")
           (py "good.md") [] compliant_doc).
  - reflexivity.
  - intros section Hin. simpl in Hin.
    repeat (destruct Hin as [<- | Hin]; [vm_compute; reflexivity |]).
    destruct Hin.
  - intros phrase Hin. simpl in Hin.
    repeat (destruct Hin as [<- | Hin]; [vm_compute; reflexivity |]).
    destruct Hin.
  - vm_compute. reflexivity.
Defined.
